(** * httpx/dispatch/connection.py: the per-origin [HTTPConnection]

    A shallow embedding of [HTTPConnection] (constructor, [send], [connect],
    [close] and the three accessors) together with the properties of its
    negotiation-and-delegation logic.

    Python objects are references.  An [HTTPConnection] instance lives in a
    store ([heap]) and is named by its location, so that the closure
    [functools.partial(self.release_func, self)] can capture the instance
    itself.  Objects owned by the collaborators (streams, TLS contexts,
    protocol connections, requests, responses, exceptions) are opaque
    references: this module never looks inside them.  Every call into a
    collaborator goes through one handler, [perform], over an abstract
    [World], and is recorded in a [trace]; the theorems hold for every
    handler.  Coroutines are run to completion one after the other: the
    callers of one instance serialise their calls. *)

From Stdlib Require Import ZArith.
From Stdlib Require QArith.
From stdpp Require Import base tactics option list gmap strings.

(** ** Opaque objects of the collaborators *)

Inductive Kind :=
| KAsyncRequest | KAsyncResponse | KReader | KWriter | KSSLContext
| KBackend | KReleaseCallback | KHTTP11Connection | KHTTP2Connection
| KException.

(** A reference to an object of the given kind; [id] is its identity. *)
Inductive obj (k : Kind) : Type := Obj (id : nat).
Arguments Obj {k} id.

#[global] Instance Kind_eq_dec : EqDecision Kind.
Proof. solve_decision. Defined.
#[global] Instance obj_eq_dec k : EqDecision (obj k).
Proof. solve_decision. Defined.

Abbreviation AsyncRequest := (obj KAsyncRequest).
Abbreviation AsyncResponse := (obj KAsyncResponse).
Abbreviation Reader := (obj KReader).
Abbreviation Writer := (obj KWriter).
Abbreviation SSLContext := (obj KSSLContext).
Abbreviation ReleaseCallback := (obj KReleaseCallback).
Abbreviation HTTP11Connection := (obj KHTTP11Connection).
Abbreviation HTTP2Connection := (obj KHTTP2Connection).
Abbreviation Exception := (obj KException).

(** [self.backend = AsyncioBackend() if backend is None else backend] *)
Inductive ConcurrencyBackend :=
| AsyncioBackend
| UserBackend (b : obj KBackend).

(** interfaces.Protocol *)
Inductive Protocol := HTTP_11 | HTTP_2.

#[global] Instance Protocol_eq_dec : EqDecision Protocol.
Proof. solve_decision. Defined.

(** [x is None] *)
Definition is_None {A} (x : option A) : bool :=
  match x with
  | None => true
  | Some _ => false
  end.

(** Location of an [HTTPConnection] instance in the store. *)
Definition loc := positive.

(** ** Configuration values (config.py, models.py) *)

(** A Python float holding a duration; carried around, never computed with. *)
Definition seconds : Type := QArith_base.Q.

(** Modelled from the spec: VerifyTypes, the verification mode, is a boolean
    (verify against the default trust store, or verification disabled) or
    the path of a trust store. *)
Inductive VerifyTypes :=
| VerifyBool (b : bool)
| VerifyPath (path : string).

(** Modelled from the spec: CertTypes, the client certificate material, is
    a certificate file or a certificate file with its key file. *)
Inductive CertTypes :=
| CertFile (path : string)
| CertKeyPair (certfile keyfile : string).

Module SSLConfig.
(** Modelled from the spec: SSLConfig holds the verification mode and the
    optional client certificate material. *)
Record t := mk { cert : option CertTypes; verify : VerifyTypes }.

(** Modelled from the spec: SSLConfig.with_overrides produces a derived
    configuration in which the verification mode and the certificate are
    replaced where an override is supplied; the base configuration is not
    mutated. *)
Definition with_overrides (self : t)
    (verify : option VerifyTypes) (cert : option CertTypes) : t :=
  {| cert := match cert with None => self.(SSLConfig.cert) | Some _ => cert end;
     verify := default self.(SSLConfig.verify) verify |}.
End SSLConfig.

Module TimeoutConfig.
(** Modelled from the spec: TimeoutConfig holds the per-phase timeout
    values (connect, read, write, pool-wait). *)
Record t := mk {
  connect_timeout : option seconds;
  read_timeout : option seconds;
  write_timeout : option seconds;
  pool_timeout : option seconds
}.
End TimeoutConfig.

(** Modelled from the spec: TimeoutTypes, what a caller may pass as a
    timeout, is a bare number of seconds or a TimeoutConfig. *)
Inductive TimeoutTypes :=
| TimeoutSeconds (s : seconds)
| TimeoutOfConfig (c : TimeoutConfig.t).

Module Origin.
(** Modelled from the spec: Origin is the immutable triple
    (scheme, host, port). *)
Record t := mk { scheme : string; host : string; port : Z }.

(** Modelled from the spec: [is_ssl] holds when the scheme implies TLS. *)
Definition is_ssl (self : t) : bool := String.eqb self.(scheme) "https"%string.
End Origin.

(** [functools.partial(func, arg)]: the callback with its first argument
    fixed to the instance at [arg]. *)
Inductive Partial := partial (func : ReleaseCallback) (arg : loc).

(** ** The instance *)

Module HTTPConnection.
Record t := mk {
  origin : Origin.t;
  ssl : SSLConfig.t;
  timeout : TimeoutConfig.t;
  backend : ConcurrencyBackend;
  release_func : option ReleaseCallback;
  h11_connection : option HTTP11Connection;
  h2_connection : option HTTP2Connection
}.

(** [self.h11_connection = h] *)
Definition set_h11_connection (h : option HTTP11Connection) (c : t) : t :=
  mk c.(origin) c.(ssl) c.(timeout) c.(backend) c.(release_func)
     h c.(h2_connection).

(** [self.h2_connection = h] *)
Definition set_h2_connection (h : option HTTP2Connection) (c : t) : t :=
  mk c.(origin) c.(ssl) c.(timeout) c.(backend) c.(release_func)
     c.(h11_connection) h.
End HTTPConnection.

(** Neither protocol connection is bound. *)
Definition unbound (c : HTTPConnection.t) : Prop :=
  HTTPConnection.h11_connection c = None /\ HTTPConnection.h2_connection c = None.

(** Invariant A: at most one of the two handles is non-null. *)
Definition at_most_one_bound (c : HTTPConnection.t) : Prop :=
  HTTPConnection.h11_connection c = None \/ HTTPConnection.h2_connection c = None.

(** Exactly one of the two handles is non-null. *)
Definition exactly_one_bound (c : HTTPConnection.t) : Prop :=
  (is_Some (HTTPConnection.h11_connection c) /\ HTTPConnection.h2_connection c = None)
  \/ (HTTPConnection.h11_connection c = None /\ is_Some (HTTPConnection.h2_connection c)).

#[global] Instance unbound_dec c : Decision (unbound c).
Proof. unfold unbound. apply _. Defined.
#[global] Instance at_most_one_bound_dec c : Decision (at_most_one_bound c).
Proof. unfold at_most_one_bound. apply _. Defined.
#[global] Instance exactly_one_bound_dec c : Decision (exactly_one_bound c).
Proof. unfold exactly_one_bound. apply _. Defined.

(** The stored configuration of [c'] is that of [c]: every field but the
    two handles. *)
Definition same_config (c c' : HTTPConnection.t) : Prop :=
  HTTPConnection.origin c' = HTTPConnection.origin c
  /\ HTTPConnection.ssl c' = HTTPConnection.ssl c
  /\ HTTPConnection.timeout c' = HTTPConnection.timeout c
  /\ HTTPConnection.backend c' = HTTPConnection.backend c
  /\ HTTPConnection.release_func c' = HTTPConnection.release_func c.

(** The release-forwarding closure [connect] builds for the instance at
    [self]. *)
Definition on_release_of (self : loc) (c : HTTPConnection.t) : option Partial :=
  match HTTPConnection.release_func c with
  | None => None
  | Some f => Some (partial f self)
  end.

(** The effective timeout of a call in the words of the specification: the
    stored timeout configuration of the instance when no per-call override
    is supplied, the override otherwise. *)
Definition effective_timeout (c : HTTPConnection.t)
    (timeout : option TimeoutTypes) : TimeoutTypes :=
  match timeout with
  | None => TimeoutOfConfig (HTTPConnection.timeout c)
  | Some t => t
  end.

(** ** Calls into the collaborators *)

Inductive Event :=
(* await ssl.load_ssl_context() *)
| load_ssl_context (ssl : SSLConfig.t)
(* await self.backend.connect(host, port, ssl_context, timeout) *)
| backend_connect (backend : ConcurrencyBackend) (host : string) (port : Z)
    (ssl_context : option SSLContext) (timeout : TimeoutConfig.t)
(* HTTP2Connection(reader, writer, self.backend, on_release=on_release) *)
| HTTP2Connection_new (reader : Reader) (writer : Writer)
    (backend : ConcurrencyBackend) (on_release : option Partial)
(* HTTP11Connection(reader, writer, self.backend, on_release=on_release) *)
| HTTP11Connection_new (reader : Reader) (writer : Writer)
    (backend : ConcurrencyBackend) (on_release : option Partial)
(* await h.send(request, timeout=timeout) *)
| h2_send (h : HTTP2Connection) (request : AsyncRequest)
    (timeout : option TimeoutTypes)
| h11_send (h : HTTP11Connection) (request : AsyncRequest)
    (timeout : option TimeoutTypes)
(* await h.close() *)
| h2_close (h : HTTP2Connection)
| h11_close (h : HTTP11Connection)
(* h.is_closed *)
| h2_is_closed (h : HTTP2Connection)
| h11_is_closed (h : HTTP11Connection)
(* h.is_connection_dropped() *)
| h2_is_connection_dropped (h : HTTP2Connection)
| h11_is_connection_dropped (h : HTTP11Connection).

(** What each call returns when it does not raise. *)
Definition Answer (e : Event) : Type :=
  match e with
  | load_ssl_context _ => SSLContext
  | backend_connect _ _ _ _ _ => Reader * Writer * Protocol
  | HTTP2Connection_new _ _ _ _ => HTTP2Connection
  | HTTP11Connection_new _ _ _ _ => HTTP11Connection
  | h2_send _ _ _ | h11_send _ _ _ => AsyncResponse
  | h2_close _ | h11_close _ => unit
  | h2_is_closed _ | h11_is_closed _ => bool
  | h2_is_connection_dropped _ | h11_is_connection_dropped _ => bool
  end.

(** One entry of the log: the call made and how it ended, with an answer
    or with an exception raised inside the collaborator. *)
Inductive Entry := Called (e : Event) (r : Exception + Answer e).

Definition event_of (en : Entry) : Event :=
  match en with Called e _ => e end.

(** The exception a call ended with, if it raised. *)
Definition raised (en : Entry) : option Exception :=
  match en with
  | Called _ (inl x) => Some x
  | Called _ (inr _) => None
  end.

(** The protocol the transport negotiator reported, for its calls that
    established a transport. *)
Definition negotiated (en : Entry) : option Protocol :=
  match en with
  | Called (backend_connect _ _ _ _ _) (inr (_, _, protocol)) => Some protocol
  | _ => None
  end.

(** The timeout argument of a call to a protocol connection's [send]. *)
Definition delegated_timeout (en : Entry) : option (option TimeoutTypes) :=
  match event_of en with
  | h2_send _ _ timeout | h11_send _ _ timeout => Some timeout
  | _ => None
  end.

(** The calls of the connect phase: TLS context construction and the
    transport negotiator. *)
Definition is_connect_event (e : Event) : bool :=
  match e with
  | load_ssl_context _ | backend_connect _ _ _ _ _ => true
  | _ => false
  end.

(** The calls to the transport negotiator. *)
Definition is_transport_event (e : Event) : bool :=
  match e with
  | backend_connect _ _ _ _ _ => true
  | _ => false
  end.

(** The calls that touch the HTTP/1.1 protocol connection. *)
Definition is_h11_event (e : Event) : bool :=
  match e with
  | HTTP11Connection_new _ _ _ _ | h11_send _ _ _ | h11_close _
  | h11_is_closed _ | h11_is_connection_dropped _ => true
  | _ => false
  end.

(** The calls that touch the HTTP/2 protocol connection. *)
Definition is_h2_event (e : Event) : bool :=
  match e with
  | HTTP2Connection_new _ _ _ _ | h2_send _ _ _ | h2_close _
  | h2_is_closed _ | h2_is_connection_dropped _ => true
  | _ => false
  end.

(** Exceptions seen by the caller of a method. *)
Inductive exn :=
(* a failed [assert] of this module *)
| AssertionError
(* an exception raised inside a collaborator, passed through *)
| Raised (e : Exception)
(* a field read through a location that holds no instance; no location
   returned by the constructor is in this case *)
| AttributeError.

#[global] Instance exn_eq_dec : EqDecision exn.
Proof. solve_decision. Defined.

(** How the outcome of a call into a collaborator reaches the caller:
    the answer as it is, an exception as it is. *)
Definition passed {A} (r : Exception + A) : exn + A :=
  match r with
  | inl x => inl (Raised x)
  | inr a => inr a
  end.

(** ** What a caller does with one instance *)

Inductive Op :=
| Send (request : AsyncRequest) (verify : option VerifyTypes)
    (cert : option CertTypes) (timeout : option TimeoutTypes)
| Connect (verify : option VerifyTypes) (cert : option CertTypes)
    (timeout : option TimeoutTypes)
| Close
| IsHttp2
| IsClosed
| IsConnectionDropped.

(** What a method returns. *)
Inductive Value :=
| VNone
| VResponse (r : AsyncResponse)
| VBool (b : bool).

(** A call of [connect] made by the caller itself, not by [send]. *)
Definition is_direct_connect (op : Op) : bool :=
  match op with Connect _ _ _ => true | _ => false end.

Definition is_send (op : Op) : bool :=
  match op with Send _ _ _ _ => true | _ => false end.

(** The per-call overrides a call carries. *)
Definition verify_of (op : Op) : option VerifyTypes :=
  match op with
  | Send _ verify _ _ | Connect verify _ _ => verify
  | _ => None
  end.

Definition cert_of (op : Op) : option CertTypes :=
  match op with
  | Send _ _ cert _ | Connect _ cert _ => cert
  | _ => None
  end.

Definition timeout_of (op : Op) : option TimeoutTypes :=
  match op with
  | Send _ _ _ timeout | Connect _ _ timeout => timeout
  | _ => None
  end.

(** How many times the transport negotiator was called in [es]. *)
Definition transport_calls (es : list Entry) : nat :=
  length (List.filter (fun en => is_transport_event (event_of en)) es).

(** No call of the connect phase in [es]. *)
Definition no_connect_phase (es : list Entry) : Prop :=
  Forall (fun en => is_connect_event (event_of en) = false) es.

(** ** The state-and-exception monad of the methods *)

Section Dispatch.

(** The state of the collaborators and the handler of the calls into
    them: a call returns its answer or raises, and moves the world. *)
Context {World : Type}.
Variable perform : forall e : Event, World -> (Exception + Answer e) * World.

(** [TimeoutConfig(timeout)] and [Origin(origin)] of config.py and
    models.py: pure constructors of configuration values. *)
Variable TimeoutConfig_new : TimeoutTypes -> TimeoutConfig.t.
Variable Origin_new : string -> Origin.t.

Record State := mkState {
  world : World;
  heap : gmap loc HTTPConnection.t;
  trace : list Entry
}.

(** A method run from a state ends with a value or an exception, in a new
    state; what was done before an exception stays done. *)
Definition M (A : Type) : Type := State -> (exn + A) * State.

Definition ret {A} (a : A) : M A := fun st => (inr a, st).

Definition raise {A} (e : exn) : M A := fun st => (inl e, st).

Definition bind {A B} (m : M A) (k : A -> M B) : M B :=
  fun st =>
    match m st with
    | (inl e, st') => (inl e, st')
    | (inr a, st') => k a st'
    end.

(** [self.field] *)
Definition attr {A} (self : loc) (field : HTTPConnection.t -> A) : M A :=
  fun st =>
    match heap st !! self with
    | Some c => (inr (field c), st)
    | None => (inl AttributeError, st)
    end.

(** [self.field = v], as an update of the instance at [self] *)
Definition setattr (self : loc)
    (update : HTTPConnection.t -> HTTPConnection.t) : M unit :=
  fun st =>
    match heap st !! self with
    | Some c =>
        (inr tt, mkState (world st) (<[self := update c]> (heap st)) (trace st))
    | None => (inl AttributeError, st)
    end.

(** A call into a collaborator: answered by [perform], logged; an
    exception raised there passes through to the caller. *)
Definition call (e : Event) : M (Answer e) :=
  fun st =>
    let '(r, w) := perform e (world st) in
    (passed r, mkState w (heap st) (trace st ++ [Called e r])).

Notation "x <- c1 ;; c2" := (bind c1 (fun x => c2))
  (at level 100, c1 at next level, right associativity).
Notation "c1 ;; c2" := (bind c1 (fun _ => c2))
  (at level 100, right associativity).

(** ** The methods of [HTTPConnection] *)

(** [__init__]: allocates the instance; no call into a collaborator.
    The defaults of the source are [verify=True], [cert=None],
    [timeout=DEFAULT_TIMEOUT_CONFIG], [backend=None], [release_func=None]. *)
Definition init (origin : string + Origin.t) (verify : VerifyTypes)
    (cert : option CertTypes) (timeout : TimeoutTypes)
    (backend : option ConcurrencyBackend)
    (release_func : option ReleaseCallback) : M loc :=
  fun st =>
    let self := fresh (dom (heap st)) in
    let c :=
      {| HTTPConnection.origin :=
           match origin with inl url => Origin_new url | inr o => o end;
         HTTPConnection.ssl := SSLConfig.mk cert verify;
         HTTPConnection.timeout := TimeoutConfig_new timeout;
         HTTPConnection.backend := default AsyncioBackend backend;
         HTTPConnection.release_func := release_func;
         HTTPConnection.h11_connection := None;
         HTTPConnection.h2_connection := None |} in
    (inr self, mkState (world st) (<[self := c]> (heap st)) (trace st)).

Definition connect (self : loc) (verify : option VerifyTypes)
    (cert : option CertTypes) (timeout : option TimeoutTypes) : M unit :=
  self_ssl <- attr self HTTPConnection.ssl ;;
  let ssl := SSLConfig.with_overrides self_ssl verify cert in
  self_timeout <- attr self HTTPConnection.timeout ;;
  let timeout :=
    match timeout with
    | None => self_timeout
    | Some t => TimeoutConfig_new t
    end in
  origin <- attr self HTTPConnection.origin ;;
  let host := Origin.host origin in
  let port := Origin.port origin in
  ssl_context <-
    (if Origin.is_ssl origin
     then ctx <- call (load_ssl_context ssl) ;; ret (Some ctx)
     else ret None) ;;
  release_func <- attr self HTTPConnection.release_func ;;
  let on_release :=
    match release_func with
    | None => None
    | Some f => Some (partial f self)
    end in
  backend <- attr self HTTPConnection.backend ;;
  negotiated <-
    call (backend_connect backend host port ssl_context timeout) ;;
  let '(reader, writer, protocol) := negotiated in
  if decide (protocol = HTTP_2) then
    backend <- attr self HTTPConnection.backend ;;
    h <- call (HTTP2Connection_new reader writer backend on_release) ;;
    setattr self (HTTPConnection.set_h2_connection (Some h))
  else
    backend <- attr self HTTPConnection.backend ;;
    h <- call (HTTP11Connection_new reader writer backend on_release) ;;
    setattr self (HTTPConnection.set_h11_connection (Some h)).

Definition send (self : loc) (request : AsyncRequest)
    (verify : option VerifyTypes) (cert : option CertTypes)
    (timeout : option TimeoutTypes) : M AsyncResponse :=
  h11 <- attr self HTTPConnection.h11_connection ;;
  h2 <- attr self HTTPConnection.h2_connection ;;
  (if is_None h11 && is_None h2
   then connect self verify cert timeout
   else ret tt) ;;
  h2 <- attr self HTTPConnection.h2_connection ;;
  match h2 with
  | Some h2 =>
      response <- call (h2_send h2 request timeout) ;;
      ret response
  | None =>
      h11 <- attr self HTTPConnection.h11_connection ;;
      match h11 with
      | None => raise AssertionError
      | Some h11 =>
          response <- call (h11_send h11 request timeout) ;;
          ret response
      end
  end.

Definition close (self : loc) : M unit :=
  h2 <- attr self HTTPConnection.h2_connection ;;
  match h2 with
  | Some h2 => call (h2_close h2)
  | None =>
      h11 <- attr self HTTPConnection.h11_connection ;;
      match h11 with
      | Some h11 => call (h11_close h11)
      | None => ret tt
      end
  end.

Definition is_http2 (self : loc) : M bool :=
  h2 <- attr self HTTPConnection.h2_connection ;;
  ret (negb (is_None h2)).

Definition is_closed (self : loc) : M bool :=
  h2 <- attr self HTTPConnection.h2_connection ;;
  match h2 with
  | Some h2 => call (h2_is_closed h2)
  | None =>
      h11 <- attr self HTTPConnection.h11_connection ;;
      match h11 with
      | None => raise AssertionError
      | Some h11 => call (h11_is_closed h11)
      end
  end.

Definition is_connection_dropped (self : loc) : M bool :=
  h2 <- attr self HTTPConnection.h2_connection ;;
  match h2 with
  | Some h2 => call (h2_is_connection_dropped h2)
  | None =>
      h11 <- attr self HTTPConnection.h11_connection ;;
      match h11 with
      | None => raise AssertionError
      | Some h11 => call (h11_is_connection_dropped h11)
      end
  end.

(** One call of a caller on the instance at [self]. *)
Definition exec (self : loc) (op : Op) : M Value :=
  match op with
  | Send request verify cert timeout =>
      r <- send self request verify cert timeout ;; ret (VResponse r)
  | Connect verify cert timeout =>
      connect self verify cert timeout ;; ret VNone
  | Close => close self ;; ret VNone
  | IsHttp2 => b <- is_http2 self ;; ret (VBool b)
  | IsClosed => b <- is_closed self ;; ret (VBool b)
  | IsConnectionDropped => b <- is_connection_dropped self ;; ret (VBool b)
  end.

(** A caller making the calls [ops] in order; an exception ends the call
    that raised it, not the caller. *)
Fixpoint run (self : loc) (ops : list Op) (st : State)
    : list (exn + Value) * State :=
  match ops with
  | [] => ([], st)
  | op :: ops =>
      let '(r, st1) := exec self op st in
      let '(rs, st2) := run self ops st1 in
      (r :: rs, st2)
  end.

(** Both handles of the instance at [self] are null in [st]. *)
Definition unbound_at (self : loc) (st : State) : bool :=
  match heap st !! self with
  | Some c => bool_decide (unbound c)
  | None => false
  end.

(** The caller enters [connect] directly only while both handles are
    null, which is when [send] enters it. *)
Fixpoint connects_only_unbound (self : loc) (ops : list Op) (st : State)
    : bool :=
  match ops with
  | [] => true
  | op :: ops =>
      (negb (is_direct_connect op) || unbound_at self st)
      && connects_only_unbound self ops (exec self op st).2
  end.

End Dispatch.

Arguments State World : clear implicits.
Arguments M World A : clear implicits.

(** ** A stub collaborator set, for concrete runs *)

Module Stub.

(** The stub negotiator answers from a script: [Some p] establishes a
    transport speaking [p], [None] refuses the connection.  Connections
    get fresh stream numbers; a protocol connection is numbered after its
    reader; [closed] lists the protocol connections closed so far. *)
Record World := mkWorld {
  script : list (option Protocol);
  next_stream : nat;
  closed : list nat
}.

Definition FileNotFoundError : Exception := Obj 1.
Definition ConnectTimeout : Exception := Obj 2.
Definition ConnectionClosed : Exception := Obj 3.

Definition id_of {k} (o : obj k) : nat := match o with Obj n => n end.

Definition is_closed_in (w : World) (n : nat) : bool :=
  bool_decide (n ∈ closed w).

Definition perform (e : Event) : World -> (Exception + Answer e) * World :=
  match e return World -> (Exception + Answer e) * World with
  | load_ssl_context ssl => fun w =>
      match SSLConfig.verify ssl with
      | VerifyPath "missing.pem" => (inl FileNotFoundError, w)
      | _ => (inr (Obj 0), w)
      end
  | backend_connect _ _ _ _ _ => fun w =>
      match script w with
      | Some p :: rest =>
          (inr (Obj (next_stream w), Obj (next_stream w), p),
           mkWorld rest (S (next_stream w)) (closed w))
      | None :: rest =>
          (inl ConnectTimeout, mkWorld rest (next_stream w) (closed w))
      | [] => (inl ConnectTimeout, w)
      end
  | HTTP2Connection_new reader _ _ _ => fun w => (inr (Obj (id_of reader)), w)
  | HTTP11Connection_new reader _ _ _ => fun w => (inr (Obj (id_of reader)), w)
  | h2_send h request _ => fun w =>
      if is_closed_in w (id_of h) then (inl ConnectionClosed, w)
      else (inr (Obj (id_of request)), w)
  | h11_send h request _ => fun w =>
      if is_closed_in w (id_of h) then (inl ConnectionClosed, w)
      else (inr (Obj (id_of request)), w)
  | h2_close h => fun w =>
      (inr tt, mkWorld (script w) (next_stream w) (id_of h :: closed w))
  | h11_close h => fun w =>
      (inr tt, mkWorld (script w) (next_stream w) (id_of h :: closed w))
  | h2_is_closed h => fun w => (inr (is_closed_in w (id_of h)), w)
  | h11_is_closed h => fun w => (inr (is_closed_in w (id_of h)), w)
  | h2_is_connection_dropped h => fun w => (inr (is_closed_in w (id_of h)), w)
  | h11_is_connection_dropped h => fun w => (inr (is_closed_in w (id_of h)), w)
  end.

(** [TimeoutConfig(timeout)]: a bare number applies to every phase. *)
Definition TimeoutConfig_new (t : TimeoutTypes) : TimeoutConfig.t :=
  match t with
  | TimeoutSeconds s => TimeoutConfig.mk (Some s) (Some s) (Some s) (Some s)
  | TimeoutOfConfig c => c
  end.

(** [Origin(url)]: the stub knows one URL. *)
Definition Origin_new (url : string) : Origin.t :=
  Origin.mk "https" "example.test" 443.

Definition DEFAULT_TIMEOUT_CONFIG : TimeoutConfig.t :=
  TimeoutConfig_new (TimeoutSeconds (QArith_base.Qmake 5 1)).

(** Nothing allocated, nothing called, the given script to play. *)
Definition start (script : list (option Protocol)) : State World :=
  mkState (mkWorld script 0 []) ∅ [].

Definition https_origin : Origin.t := Origin.mk "https" "example.test" 443.
Definition http_origin : Origin.t := Origin.mk "http" "example.test" 80.

(** [HTTPConnection(origin)] with the defaults of the source, from
    [start script]: the instance and the state it lives in. *)
Definition fresh_instance (origin : Origin.t) (release_func : option ReleaseCallback)
    (script : list (option Protocol)) : (exn + loc) * State World :=
  init TimeoutConfig_new Origin_new (inr origin) (VerifyBool true) None
    (TimeoutOfConfig DEFAULT_TIMEOUT_CONFIG) None release_func (start script).

Definition connect := connect perform TimeoutConfig_new.
Definition send := send perform TimeoutConfig_new.
Definition close := close perform.
Definition is_closed := is_closed perform.
Definition exec := exec perform TimeoutConfig_new.
Definition run := run perform TimeoutConfig_new.

(** The first instance allocated from [start]. *)
Definition self : loc := 1%positive.

(** The instance [fresh_instance origin release_func] builds. *)
Definition instance (origin : Origin.t)
    (release_func : option ReleaseCallback) : HTTPConnection.t :=
  HTTPConnection.mk origin (SSLConfig.mk None (VerifyBool true))
    DEFAULT_TIMEOUT_CONFIG AsyncioBackend release_func None None.

(** The state [fresh_instance] ends in. *)
Definition fresh (origin : Origin.t) (release_func : option ReleaseCallback)
    (script : list (option Protocol)) : State World :=
  (fresh_instance origin release_func script).2.

Definition GET : AsyncRequest := Obj 7.
Definition pool_release : ReleaseCallback := Obj 9.

End Stub.

(** The entries logged between [st] and a later state [st']. *)
Definition since {World} (st st' : State World) : list Entry :=
  drop (length (trace st)) (trace st').


(** The constructors of the two protocol connections. *)
Definition is_constructor_event (e : Event) : bool :=
  match e with
  | HTTP2Connection_new _ _ _ _ | HTTP11Connection_new _ _ _ _ => true
  | _ => false
  end.

(** A call that constructed a protocol connection: a constructor that
    returned. *)
Definition constructed (en : Entry) : bool :=
  match en with
  | Called (HTTP2Connection_new _ _ _ _) (inr _)
  | Called (HTTP11Connection_new _ _ _ _) (inr _) => true
  | _ => false
  end.

(** ** Properties *)

Section Properties.

Context {World : Type}.
Variable perform : forall e : Event, World -> (Exception + Answer e) * World.
Variable TimeoutConfig_new : TimeoutTypes -> TimeoutConfig.t.
Variable Origin_new : string -> Origin.t.

Implicit Types (st : State World) (self : loc) (c : HTTPConnection.t).
Implicit Types (es : list Entry) (en : Entry).

Local Abbreviation init := (init TimeoutConfig_new Origin_new).
Local Abbreviation connect := (connect perform TimeoutConfig_new).
Local Abbreviation send := (send perform TimeoutConfig_new).
Local Abbreviation close := (close perform).
Local Abbreviation is_closed := (is_closed perform).
Local Abbreviation is_connection_dropped := (is_connection_dropped perform).
Local Abbreviation exec := (exec perform TimeoutConfig_new).
Local Abbreviation run := (run perform TimeoutConfig_new).

(** *** Running the methods symbolically *)

(** Unfolds the method in the goal and follows it, reading the fields of
    the instance from [H] and splitting on every outcome of a call. *)
Ltac follow H :=
  unfold send, connect, close, is_closed, is_connection_dropped, is_http2,
    bind, attr, setattr, call, ret, raise in *;
  cbn [heap world trace] in *;
  repeat first
    [ rewrite H in *
    | rewrite lookup_insert_eq in *
    | progress cbn [heap world trace fst snd passed is_None andb negb
                    HTTPConnection.origin HTTPConnection.ssl
                    HTTPConnection.timeout HTTPConnection.backend
                    HTTPConnection.release_func
                    HTTPConnection.h11_connection
                    HTTPConnection.h2_connection
                    HTTPConnection.set_h11_connection
                    HTTPConnection.set_h2_connection] in *
    | match goal with
      | |- context [perform ?e ?w] =>
          let r := fresh "r" in let w' := fresh "w" in let E := fresh "E" in
          destruct (perform e w) as [r w'] eqn:E; destruct r
      | |- context [Origin.is_ssl ?o] => destruct (Origin.is_ssl o) eqn:?
      | |- context [decide (?p = HTTP_2)] => destruct (decide (p = HTTP_2))
      | |- context [match ?x with _ => _ end] => is_var x; destruct x
      | |- context [is_None ?x] => is_var x; destruct x
      end ].

(** Names the outcome of the method just followed and the entries it
    logged: the goal is [m st = (r, st') -> trace st' = trace st ++ es -> _]. *)
Ltac outcome :=
  let Htr := fresh "Htr" in
  intros [= <- <-] Htr; cbn [trace] in Htr;
  rewrite <- ?app_assoc in Htr;
  lazymatch type of Htr with
  | ?l = ?l ++ _ => rewrite <- (app_nil_r l) in Htr at 1
  | _ => idtac
  end;
  apply app_inv_head in Htr; subst; cbn [app] in *.

(** Turns [en ∈ [en1; ...; enk]] into the choice of one of them. *)
Ltac entries H :=
  repeat rewrite ?elem_of_cons, ?elem_of_nil in H;
  repeat (destruct H as [H|H]); try done; subst.

(** C5. A [connect] in which a collaborator raises (the TLS context
    construction and the transport negotiator among them) ends with that
    very exception, and a [connect] that ends with an exception leaves the
    instance as it was: no handle is bound by a failing [connect]. *)
Theorem connect_failure_binds_nothing
    self verify cert timeout st c r st' es :
  heap st !! self = Some c ->
  connect self verify cert timeout st = (r, st') ->
  trace st' = trace st ++ es ->
  (forall en x, en ∈ es -> raised en = Some x -> r = inl (Raised x))
  /\ (forall e, r = inl e -> heap st' = heap st /\ heap st' !! self = Some c).
Proof.
  intros Hc; follow Hc; outcome.
  all: split; [ intros en x Hen Hx; entries Hen; by simplify_eq/=
              | intros e' ?; by simplify_eq ].
Qed.

(** C9. Every protocol connection [connect] constructs is given, as
    [on_release], the release callback partially applied to the location
    [self] of the instance [connect] was called on, or [None] when the
    instance has no release callback; a [connect] that returns has
    constructed one protocol connection, with the transport of the
    negotiator and the backend of the instance, and has bound it. *)
Theorem connect_forwards_release
    self verify cert timeout st c r st' es :
  heap st !! self = Some c ->
  connect self verify cert timeout st = (r, st') ->
  trace st' = trace st ++ es ->
  (forall en reader writer backend on_release,
      en ∈ es ->
      event_of en = HTTP2Connection_new reader writer backend on_release
      \/ event_of en = HTTP11Connection_new reader writer backend on_release ->
      on_release =
        match HTTPConnection.release_func c with
        | None => None
        | Some f => Some (partial f self)
        end)
  /\ (r = inr tt ->
      exists pre reader writer,
        (exists h,
            es = pre ++ [Called (HTTP2Connection_new reader writer
                                   (HTTPConnection.backend c)
                                   (on_release_of self c)) (inr h)]
            /\ heap st' !! self
               = Some (HTTPConnection.set_h2_connection (Some h) c))
        \/ (exists h,
            es = pre ++ [Called (HTTP11Connection_new reader writer
                                   (HTTPConnection.backend c)
                                   (on_release_of self c)) (inr h)]
            /\ heap st' !! self
               = Some (HTTPConnection.set_h11_connection (Some h) c))).
Proof.
  intros Hc; follow Hc; outcome.
  all: split;
    [ intros en rd wr bk f Hen Hev; entries Hen; cbn in Hev;
      destruct Hev; by simplify_eq
    | intros ?; simplify_eq ].
  all: first
    [ eexists [_; _], _, _; left; eexists; split;
        [reflexivity | apply lookup_insert_eq]
    | eexists [_], _, _; left; eexists; split;
        [reflexivity | apply lookup_insert_eq]
    | eexists [_; _], _, _; right; eexists; split;
        [reflexivity | apply lookup_insert_eq]
    | eexists [_], _, _; right; eexists; split;
        [reflexivity | apply lookup_insert_eq] ].
Qed.

(** C6. [close] closes the HTTP/2 connection when one is bound, else the
    HTTP/1.1 connection when one is bound, with that one call and its
    outcome; with neither bound it returns at once in the state it was
    called in, and so it does on the instance the constructor has just
    built. *)
Theorem close_closes_the_bound_handle self st c :
  heap st !! self = Some c ->
  match HTTPConnection.h2_connection c, HTTPConnection.h11_connection c with
  | Some h2, _ =>
      let '(a, w) := perform (h2_close h2) (world st) in
      close self st
      = (passed a, mkState w (heap st) (trace st ++ [Called (h2_close h2) a]))
  | None, Some h11 =>
      let '(a, w) := perform (h11_close h11) (world st) in
      close self st
      = (passed a, mkState w (heap st) (trace st ++ [Called (h11_close h11) a]))
  | None, None => close self st = (inr tt, st)
  end
  /\ forall origin verify cert timeout backend release_func st0,
      exists self0 st1,
        init origin verify cert timeout backend release_func st0
        = (inr self0, st1)
        /\ close self0 st1 = (inr tt, st1).
Proof.
  intros Hc. split.
  - destruct c; follow Hc; reflexivity.
  - intros. unfold init. eexists _, _. split; [reflexivity |].
    unfold close, bind, attr; cbn [heap].
    by repeat (rewrite lookup_insert_eq; cbn).
Qed.

(** C7. [is_closed] and [is_connection_dropped] ask the bound protocol
    connection (the HTTP/2 one first) and pass its outcome; with neither
    bound they raise [AssertionError], which no collaborator exception is,
    and they end with [AssertionError] exactly when neither is bound. *)
Theorem accessors_assert_a_bound_handle self st c :
  heap st !! self = Some c ->
  match HTTPConnection.h2_connection c, HTTPConnection.h11_connection c with
  | Some h2, _ =>
      (let '(a, w) := perform (h2_is_closed h2) (world st) in
       is_closed self st
       = (passed a,
          mkState w (heap st) (trace st ++ [Called (h2_is_closed h2) a])))
      /\ (let '(a, w) := perform (h2_is_connection_dropped h2) (world st) in
          is_connection_dropped self st
          = (passed a,
             mkState w (heap st)
               (trace st ++ [Called (h2_is_connection_dropped h2) a])))
  | None, Some h11 =>
      (let '(a, w) := perform (h11_is_closed h11) (world st) in
       is_closed self st
       = (passed a,
          mkState w (heap st) (trace st ++ [Called (h11_is_closed h11) a])))
      /\ (let '(a, w) := perform (h11_is_connection_dropped h11) (world st) in
          is_connection_dropped self st
          = (passed a,
             mkState w (heap st)
               (trace st ++ [Called (h11_is_connection_dropped h11) a])))
  | None, None =>
      is_closed self st = (inl AssertionError, st)
      /\ is_connection_dropped self st = (inl AssertionError, st)
  end
  /\ ((is_closed self st).1 = inl AssertionError <-> unbound c)
  /\ ((is_connection_dropped self st).1 = inl AssertionError <-> unbound c)
  /\ (forall x, AssertionError <> Raised x).
Proof.
  intros Hc. unfold unbound. destruct c; follow Hc.
  all: repeat split; try done; try (by intros []); try (by intros [_ ?]).
Qed.

(** C10. [close] leaves the store as it is, whatever its outcome: no field
    of the instance is modified.  On an instance that was bound, a [send]
    after it makes one call, the [send] of the very protocol connection that
    was bound, with the request and the timeout it was given, passes its
    outcome, and leaves the store as it is: no call of the connect phase,
    no new binding. *)
Theorem close_keeps_the_binding
    self st c r st1 request verify cert timeout r' st2 es :
  heap st !! self = Some c ->
  close self st = (r, st1) ->
  send self request verify cert timeout st1 = (r', st2) ->
  trace st2 = trace st1 ++ es ->
  heap st1 = heap st
  /\ (~ unbound c ->
      heap st2 = heap st
      /\ no_connect_phase es
      /\ match HTTPConnection.h2_connection c,
              HTTPConnection.h11_connection c with
         | Some h2, _ =>
             exists a,
               es = [Called (h2_send h2 request timeout) a] /\ r' = passed a
         | None, Some h11 =>
             exists a,
               es = [Called (h11_send h11 request timeout) a] /\ r' = passed a
         | None, None => False
         end).
Proof.
  intros Hc Hclose.
  assert (heap st1 = heap st) as Hh
    by (revert Hclose; destruct c; follow Hc; by intros [= <- <-]).
  intros Hsend Htr. split; [done |]. intros Hb.
  rewrite <- Hh in Hc |- *. clear Hclose Hh st.
  revert Hsend Htr. unfold unbound, no_connect_phase in *.
  destruct c; follow Hc; outcome.
  all: try (by destruct Hb).
  all: repeat split; try (by repeat constructor); by eexists.
Qed.


(** C4, as the code has it. Every call [send] makes to a protocol
    connection's [send] carries the request and, as its timeout argument,
    the per-call [timeout] that [send] was given, [None] when no override
    was supplied; a [send] that returns has ended with such a call.  The
    timeout merged from the stored configuration and the override is
    what the connect phase hands to the transport negotiator. *)
Theorem send_passes_the_timeout_it_was_given
    self request verify cert timeout st c r st' es :
  heap st !! self = Some c ->
  send self request verify cert timeout st = (r, st') ->
  trace st' = trace st ++ es ->
  (forall en t, en ∈ es -> delegated_timeout en = Some t -> t = timeout)
  /\ (forall resp, r = inr resp ->
      exists pre en, es = pre ++ [en] /\ delegated_timeout en = Some timeout)
  /\ (forall en backend host port ssl_context t,
        en ∈ es ->
        event_of en = backend_connect backend host port ssl_context t ->
        t = match timeout with
            | None => HTTPConnection.timeout c
            | Some t' => TimeoutConfig_new t'
            end).
Proof.
  intros Hc; destruct c; follow Hc; outcome.
  all: split; [| split];
    [ intros en t' Hen Hd; entries Hen; cbn in Hd; by simplify_eq
    | intros resp ?; simplify_eq
    | intros en bk hs pt ctx t' Hen Hev; entries Hen; cbn in Hev;
      by simplify_eq ].
  all: first [ by eexists [_; _; _], _ | by eexists [_; _], _
             | by eexists [_], _ | by eexists [], _ ].
Qed.

(** *** One call of a caller *)

(** A call leaves the stored configuration alone and touches the handles
    only by binding one of them in a [connect], entered directly or by a
    [send] that found both null. *)
Lemma exec_step self op st c r st' :
  heap st !! self = Some c ->
  exec self op st = (r, st') ->
  exists c',
    heap st' !! self = Some c'
    /\ same_config c c'
    /\ ((HTTPConnection.h11_connection c' = HTTPConnection.h11_connection c
         /\ HTTPConnection.h2_connection c' = HTTPConnection.h2_connection c)
        \/ ((is_direct_connect op = true \/ (is_send op = true /\ unbound c))
            /\ ((HTTPConnection.h11_connection c' = HTTPConnection.h11_connection c
                 /\ is_Some (HTTPConnection.h2_connection c'))
                \/ (is_Some (HTTPConnection.h11_connection c')
                    /\ HTTPConnection.h2_connection c'
                       = HTTPConnection.h2_connection c)))).
Proof.
  intros Hc; destruct c, op; unfold exec; follow Hc; intros [= <- <-].
  all: eexists; split; [first [exact Hc | apply lookup_insert_eq] |].
  all: split; [done |]; cbn.
  all: first
    [ by left
    | right; split; [first [by left | by right] |];
      first [by left | by right] ].
Qed.

Local Abbreviation connects_only_unbound :=
  (connects_only_unbound perform TimeoutConfig_new).

(** *** Sequences of calls *)

Lemma run_cons self op ops st :
  run self (op :: ops) st
  = ((exec self op st).1 :: (run self ops (exec self op st).2).1,
     (run self ops (exec self op st).2).2).
Proof.
  simpl.
  destruct (exec self op st) as [r st1]; simpl.
  by destruct (run self ops st1).
Qed.

Lemma run_app self ops1 ops2 st :
  run self (ops1 ++ ops2) st
  = (let '(rs1, st1) := run self ops1 st in
     let '(rs2, st2) := run self ops2 st1 in
     (rs1 ++ rs2, st2)).
Proof.
  revert st. induction ops1 as [|op ops1 IH]; intros st.
  - simpl. by destruct (run self ops2 st).
  - simpl. destruct (exec self op st) as [r st1]. rewrite IH.
    destruct (run self ops1 st1) as [rs1 st2].
    by destruct (run self ops2 st2).
Qed.

Lemma connects_only_unbound_app self ops1 ops2 st :
  connects_only_unbound self (ops1 ++ ops2) st = true ->
  connects_only_unbound self ops1 st = true
  /\ connects_only_unbound self ops2 (run self ops1 st).2 = true.
Proof.
  revert st. induction ops1 as [|op ops1 IH]; intros st; simpl; [done |].
  intros [Hop Hg]%andb_prop. destruct (IH _ Hg) as [H1 H2].
  rewrite Hop, H1. split; [done |].
  destruct (exec self op st) as [r st1]; simpl in *.
  by destruct (run self ops1 st1).
Qed.

Lemma same_config_trans c1 c2 c3 :
  same_config c1 c2 -> same_config c2 c3 -> same_config c1 c3.
Proof. unfold same_config. intuition congruence. Qed.

Lemma run_keeps_config self ops st c rs st' :
  heap st !! self = Some c ->
  run self ops st = (rs, st') ->
  exists c', heap st' !! self = Some c' /\ same_config c c'.
Proof.
  revert st c rs st'. induction ops as [|op ops IH]; intros st c rs st' Hc.
  - intros [= <- <-]. exists c. by repeat split.
  - rewrite run_cons. destruct (exec self op st) as [r st1] eqn:He.
    intros [= <- <-]; cbn [fst snd].
    destruct (exec_step _ _ _ _ _ _ Hc He) as (c1 & Hc1 & Hcfg & _).
    destruct (run self ops st1) as [rs1 st2] eqn:Hrun.
    destruct (IH _ _ _ _ Hc1 Hrun) as (c2 & Hc2 & Hcfg2).
    exists c2. eauto using same_config_trans.
Qed.

(** While [connect] is entered only on an unbound instance, at most one
    handle is ever non-null, and handles once bound stay as they are. *)
Lemma run_keeps_single_binding self ops st c rs st' :
  heap st !! self = Some c ->
  at_most_one_bound c ->
  connects_only_unbound self ops st = true ->
  run self ops st = (rs, st') ->
  exists c',
    heap st' !! self = Some c'
    /\ at_most_one_bound c'
    /\ (~ unbound c ->
        HTTPConnection.h11_connection c' = HTTPConnection.h11_connection c
        /\ HTTPConnection.h2_connection c' = HTTPConnection.h2_connection c).
Proof.
  revert st c rs st'.
  induction ops as [|op ops IH]; intros st c rs st' Hc Ha Hg.
  - intros [= <- <-]. by exists c.
  - rewrite run_cons. simpl in Hg.
    apply andb_prop in Hg as [Hop Hg].
    destruct (exec self op st) as [r st1] eqn:He.
    intros [= <- <-]; cbn [fst snd] in *.
    destruct (exec_step _ _ _ _ _ _ Hc He) as (c1 & Hc1 & _ & Hstep).
    destruct (run self ops st1) as [rs1 st2] eqn:Hrun.
    assert (unbound c -> at_most_one_bound c1) as Hu.
    { unfold unbound, at_most_one_bound.
      destruct Hstep as [[-> ->]|[_ [[-> _]|[_ ->]]]]; tauto. }
    assert (at_most_one_bound c1
            /\ (~ unbound c ->
                HTTPConnection.h11_connection c1 = HTTPConnection.h11_connection c
                /\ HTTPConnection.h2_connection c1
                   = HTTPConnection.h2_connection c)) as [Ha1 Hsame].
    { destruct Hstep as [[E1 E2]|[Hconn Hbind]].
      - split; [| done]. unfold at_most_one_bound. by rewrite E1, E2.
      - assert (unbound c) as Hunb.
        { destruct Hconn as [Hd|[_ ?]]; [| done].
          rewrite Hd in Hop. simpl in Hop. unfold unbound_at in Hop.
          rewrite Hc in Hop. by apply bool_decide_eq_true_1 in Hop. }
        split; [by apply Hu | done]. }
    destruct (IH _ _ _ _ Hc1 Ha1 Hg Hrun) as (c2 & Hc2 & Ha2 & Hsame2).
    exists c2. split; [done |]. split; [done |].
    intros Hb. destruct (Hsame Hb) as [E1 E2].
    rewrite <- E1, <- E2. apply Hsame2. unfold unbound. by rewrite E1, E2.
Qed.

(** A [connect] that returns, entered on an unbound instance, has bound
    exactly one handle. *)
Lemma connect_binds_exactly_one self verify cert timeout st c st' :
  heap st !! self = Some c ->
  unbound c ->
  connect self verify cert timeout st = (inr tt, st') ->
  exists c', heap st' !! self = Some c' /\ exactly_one_bound c'.
Proof.
  intros Hc [H11 H2]; destruct c; cbn in H11, H2; subst.
  follow Hc; intros [= <-].
  all: eexists; split; [apply lookup_insert_eq |].
  all: unfold exactly_one_bound; cbn; first [by left | by right].
Qed.


(** *** The connect phase of [send] *)

Lemma send_connect_phase_iff self request verify cert timeout st c r st' es :
  heap st !! self = Some c ->
  send self request verify cert timeout st = (r, st') ->
  trace st' = trace st ++ es ->
  Exists (fun en => is_connect_event (event_of en) = true) es <-> unbound c.
Proof.
  intros Hc; destruct c; follow Hc; outcome.
  all: unfold unbound; cbn; split;
    [ intros Hex; repeat (apply Exists_cons in Hex as [Hex|Hex]);
      first [done | by apply Exists_nil in Hex]
    | intros [? ?]; first [done | by apply Exists_cons_hd] ].
Qed.

Lemma send_first_connects_once
    self request verify cert timeout st c resp st1 es1 :
  heap st !! self = Some c ->
  unbound c ->
  send self request verify cert timeout st = (inr resp, st1) ->
  trace st1 = trace st ++ es1 ->
  transport_calls es1 = 1
  /\ exists c1, heap st1 !! self = Some c1 /\ ~ unbound c1.
Proof.
  intros Hc [H11 H2]; destruct c; cbn in H11, H2; subst.
  follow Hc; intros Hret Htr; simplify_eq; cbn [trace] in Htr;
    rewrite <- ?app_assoc in Htr; apply app_inv_head in Htr; subst.
  all: split; [reflexivity |].
  all: eexists; split; [apply lookup_insert_eq |].
  all: unfold unbound; cbn; by intros [? ?].
Qed.

Lemma exec_bound_no_connect self op st c r st' :
  heap st !! self = Some c ->
  ~ unbound c ->
  is_direct_connect op = false ->
  exec self op st = (r, st') ->
  heap st' = heap st
  /\ exists es, trace st' = trace st ++ es /\ no_connect_phase es.
Proof.
  intros Hc Hb; destruct c, op; try done; intros _.
  all: unfold unbound in Hb; cbn in Hb.
  all: unfold exec; follow Hc; intros [= <- <-]; cbn; try tauto.
  all: split; [done |].
  all: unfold no_connect_phase;
    first [ by exists []; rewrite app_nil_r
          | eexists [_]; split; [done | by repeat constructor] ].
Qed.

Lemma run_bound_no_connect self ops st c rs st' :
  heap st !! self = Some c ->
  ~ unbound c ->
  Forall (fun op => is_direct_connect op = false) ops ->
  run self ops st = (rs, st') ->
  heap st' = heap st
  /\ exists es, trace st' = trace st ++ es /\ no_connect_phase es.
Proof.
  intros Hc Hb Hops. revert st rs st' Hc.
  induction Hops as [|op ops Hop Hops IH]; intros st rs st' Hc.
  - intros [= <- <-]. split; [done |]. exists [].
    split; [by rewrite app_nil_r | by constructor].
  - rewrite run_cons. destruct (exec self op st) as [r st1] eqn:He.
    cbn [fst snd].
    destruct (run self ops st1) as [rs1 st2] eqn:Hrun.
    intros [= <- <-]; cbn [fst snd] in *.
    destruct (exec_bound_no_connect _ _ _ _ _ _ Hc Hb Hop He)
      as (Hh & es1 & Ht1 & Hn1).
    rewrite <- Hh in Hc.
    destruct (IH _ _ _ Hc Hrun) as (Hh2 & es2 & Ht2 & Hn2).
    split; [by rewrite Hh2, Hh |]. exists (es1 ++ es2).
    split; [by rewrite Ht2, Ht1, app_assoc | by apply Forall_app].
Qed.

Lemma run_unbound_idle self ops st c :
  heap st !! self = Some c ->
  unbound c ->
  Forall (fun op => is_send op = false /\ is_direct_connect op = false) ops ->
  (run self ops st).2 = st.
Proof.
  intros Hc [H11 H2] Hops; destruct c; cbn in H11, H2; subst.
  induction Hops as [|op ops [Hs Hd] Hops IH]; [done |].
  rewrite run_cons; cbn [snd].
  assert ((exec self op st).2 = st) as ->; [| done].
  destruct op; try done; unfold exec; follow Hc; done.
Qed.

(** C2. (1) The calls a [send] logs include a call of the connect phase
    exactly when both handles were null when it was entered.  (2) After a
    [send] that returned on an unbound instance, which called the
    transport negotiator once, no later [send] (nor [close], nor an
    accessor) makes a call of the connect phase, whatever its outcome.
    (3) The constructor calls no collaborator, and neither does any
    sequence of [close] and accessor calls on the instance it built. *)
Theorem send_connects_exactly_when_unbound :
  (forall self request verify cert timeout st c r st' es,
      heap st !! self = Some c ->
      send self request verify cert timeout st = (r, st') ->
      trace st' = trace st ++ es ->
      Exists (fun en => is_connect_event (event_of en) = true) es
      <-> unbound c)
  /\ (forall self request verify cert timeout ops st c resp st1 rs st',
        heap st !! self = Some c ->
        unbound c ->
        send self request verify cert timeout st = (inr resp, st1) ->
        Forall (fun op => is_direct_connect op = false) ops ->
        run self ops st1 = (rs, st') ->
        exists es1 es2,
          trace st1 = trace st ++ es1
          /\ trace st' = trace st1 ++ es2
          /\ transport_calls es1 = 1
          /\ no_connect_phase es2)
  /\ (forall origin verify cert timeout backend release_func ops st,
        Forall (fun op => is_send op = false /\ is_direct_connect op = false)
          ops ->
        exists self st1,
          init origin verify cert timeout backend release_func st
          = (inr self, st1)
          /\ trace st1 = trace st
          /\ world st1 = world st
          /\ (run self ops st1).2 = st1).
Proof.
  split; [| split].
  - apply send_connect_phase_iff.
  - intros self request verify cert timeout ops st c resp st1 rs st'
      Hc Hu Hsend Hops Hrun.
    assert (exists es1, trace st1 = trace st ++ es1) as [es1 Ht1].
    { revert Hsend. destruct c; follow Hc; intros [= <- <-]; cbn [trace];
        rewrite <- ?app_assoc; by eexists. }
    destruct (send_first_connects_once _ _ _ _ _ _ _ _ _ _ Hc Hu Hsend Ht1)
      as (Hone & c1 & Hc1 & Hb1).
    destruct (run_bound_no_connect _ _ _ _ _ _ Hc1 Hb1 Hops Hrun)
      as (_ & es2 & Ht2 & Hn2).
    by exists es1, es2.
  - intros origin verify cert timeout backend release_func ops st Hops.
    unfold init. eexists _, _. split; [reflexivity |].
    do 2 (split; [reflexivity |]).
    eapply run_unbound_idle; [apply lookup_insert_eq | done | done].
Qed.

(** *** The configuration a call works with *)

Lemma with_overrides_none (s : SSLConfig.t) :
  SSLConfig.with_overrides s None None = s.
Proof. by destruct s. Qed.

(** The TLS configuration and the timeout a call hands to the connect
    phase are the stored ones merged with the overrides of that call. *)
Lemma exec_merges_overrides self op st c r st' es :
  heap st !! self = Some c ->
  exec self op st = (r, st') ->
  trace st' = trace st ++ es ->
  (forall en s,
      en ∈ es -> event_of en = load_ssl_context s ->
      s = SSLConfig.with_overrides (HTTPConnection.ssl c)
            (verify_of op) (cert_of op))
  /\ (forall en backend host port ssl_context t,
        en ∈ es ->
        event_of en = backend_connect backend host port ssl_context t ->
        t = match timeout_of op with
            | None => HTTPConnection.timeout c
            | Some t' => TimeoutConfig_new t'
            end).
Proof.
  intros Hc; destruct c, op; unfold exec; follow Hc; outcome.
  all: split;
    [ intros en s Hen Hev; entries Hen; cbn in Hev; by simplify_eq
    | intros en bk hs pt ctx t' Hen Hev; entries Hen; cbn in Hev;
      by simplify_eq ].
Qed.

(** C8. Whatever calls came before, with whatever overrides, a call
    leaves the stored TLS and timeout configuration of the instance as
    they were when the sequence started; the TLS configuration it loads
    a context from and the timeout it hands to the transport negotiator
    are those stored defaults merged with the overrides of this call
    alone, so that without overrides they are the stored defaults. *)
Theorem overrides_leave_the_stored_configuration
    self ops st c rs st1 op r st2 es :
  heap st !! self = Some c ->
  run self ops st = (rs, st1) ->
  exec self op st1 = (r, st2) ->
  trace st2 = trace st1 ++ es ->
  (exists c2,
      heap st2 !! self = Some c2
      /\ HTTPConnection.ssl c2 = HTTPConnection.ssl c
      /\ HTTPConnection.timeout c2 = HTTPConnection.timeout c)
  /\ (forall en s,
        en ∈ es -> event_of en = load_ssl_context s ->
        s = SSLConfig.with_overrides (HTTPConnection.ssl c)
              (verify_of op) (cert_of op)
        /\ (verify_of op = None -> cert_of op = None ->
            s = HTTPConnection.ssl c))
  /\ (forall en backend host port ssl_context t,
        en ∈ es ->
        event_of en = backend_connect backend host port ssl_context t ->
        t = match timeout_of op with
            | None => HTTPConnection.timeout c
            | Some t' => TimeoutConfig_new t'
            end).
Proof.
  intros Hc Hrun He Ht.
  destruct (run_keeps_config _ _ _ _ _ _ Hc Hrun)
    as (c1 & Hc1 & _ & Hssl1 & Htm1 & _).
  destruct (exec_step _ _ _ _ _ _ Hc1 He) as (c2 & Hc2 & (_ & Hssl2 & Htm2 & _) & _).
  destruct (exec_merges_overrides _ _ _ _ _ _ _ Hc1 He Ht) as [Hload Hconn].
  rewrite Hssl1 in Hload. rewrite Htm1 in Hconn.
  split; [exists c2; split; [done |]; split; congruence |].
  split; [| done].
  intros en s Hen Hev. pose proof (Hload _ _ Hen Hev) as ->.
  split; [done |]. intros -> ->. apply with_overrides_none.
Qed.

(** *** Further properties of the methods *)

(** X1. After a [send] that returned on an instance that was unbound,
    [is_http2] calls no collaborator, leaves the state as it is, and answers
    true exactly when the transport negotiator reported HTTP/2 in that
    [send]. *)
Theorem is_http2_reports_the_negotiated_protocol
    self request verify cert timeout st c resp st1 es :
  heap st !! self = Some c ->
  unbound c ->
  send self request verify cert timeout st = (inr resp, st1) ->
  trace st1 = trace st ++ es ->
  exists b,
    is_http2 self st1 = (inr b, st1)
    /\ (b = true <-> Some HTTP_2 ∈ negotiated <$> es).
Proof.
  intros Hc [H11 H2]; destruct c; cbn in H11, H2; subst.
  follow Hc; intros Hret Htr; simplify_eq; cbn [trace] in Htr;
    rewrite <- ?app_assoc in Htr; apply app_inv_head in Htr; subst.
  all: cbn [heap]; rewrite lookup_insert_eq; cbn.
  all: eexists; split; [reflexivity |]; cbn.
  all: split; [intros ? | intros Hneg; entries Hneg]; try done.
  all: first [ apply list_elem_of_here
             | apply list_elem_of_further, list_elem_of_here
             | by simplify_eq ].
Qed.

(** X2. The [assert] of [send] never fails: a [send] on a live instance
    never ends with [AssertionError], because a [connect] that returns has
    bound a handle. *)
Theorem send_never_fails_its_assertion
    self request verify cert timeout st c :
  heap st !! self = Some c ->
  (send self request verify cert timeout st).1 <> inl AssertionError.
Proof.
  intros Hc; destruct c; follow Hc; done.
Qed.


Lemma exec_leaves_other_instances self op st l :
  l <> self ->
  heap (exec self op st).2 !! l = heap st !! l.
Proof.
  intros Hl. destruct (heap st !! self) as [c|] eqn:Hc.
  - destruct c, op; unfold exec; follow Hc; cbn;
      by rewrite ?lookup_insert_ne.
  - destruct op; unfold exec; follow Hc; done.
Qed.

(** X4. The calls made on one instance never modify another: whatever the
    sequence of calls on the instance at [self], every other location of
    the store holds what it held. *)
Theorem run_leaves_other_instances self ops st l :
  l <> self ->
  heap (run self ops st).2 !! l = heap st !! l.
Proof.
  intros Hl. revert st. induction ops as [|op ops IH]; intros st; [done |].
  rewrite run_cons; cbn [snd]. rewrite IH.
  by apply exec_leaves_other_instances.
Qed.

(** X5. [connect] loads a TLS context exactly when the origin is TLS: for a
    TLS origin its first call loads the context from the merged TLS
    configuration, and only if that returns does it call the transport
    negotiator, with that context; for a plain origin its first call is the
    transport negotiator with no context, and no context is ever loaded.
    Either way the negotiator gets the host and port of the origin and the
    backend of the instance. *)
Theorem connect_loads_tls_only_for_tls_origins
    self verify cert timeout st c r st' es :
  heap st !! self = Some c ->
  connect self verify cert timeout st = (r, st') ->
  trace st' = trace st ++ es ->
  let negotiate ctx :=
    backend_connect (HTTPConnection.backend c)
      (Origin.host (HTTPConnection.origin c))
      (Origin.port (HTTPConnection.origin c)) ctx
      match timeout with
      | None => HTTPConnection.timeout c
      | Some t => TimeoutConfig_new t
      end in
  if Origin.is_ssl (HTTPConnection.origin c) then
    exists a rest,
      es = Called (load_ssl_context
                     (SSLConfig.with_overrides (HTTPConnection.ssl c)
                        verify cert)) a :: rest
      /\ match a with
         | inl x => rest = [] /\ r = inl (Raised x)
         | inr ctx => exists a' rest', rest = Called (negotiate (Some ctx)) a' :: rest'
         end
  else
    (exists a rest, es = Called (negotiate None) a :: rest)
    /\ Forall (fun en => forall s, event_of en <> load_ssl_context s) es.
Proof.
  intros Hc; destruct c; follow Hc; outcome; cbn.
  all: first
    [ by eexists (inl _), _
    | eexists (inr _), _; split; [reflexivity |]; by eexists _, _
    | split; [by eexists _, _ | by repeat constructor] ].
Qed.

(** X6. No method ever sets a handle back to null: over every sequence of
    calls, direct [connect] calls and [close] included, a handle that was
    non-null is non-null afterwards. *)
Theorem binding_is_never_undone self ops st c rs st' :
  heap st !! self = Some c ->
  run self ops st = (rs, st') ->
  exists c',
    heap st' !! self = Some c'
    /\ (is_Some (HTTPConnection.h11_connection c) ->
        is_Some (HTTPConnection.h11_connection c'))
    /\ (is_Some (HTTPConnection.h2_connection c) ->
        is_Some (HTTPConnection.h2_connection c')).
Proof.
  revert st c rs st'. induction ops as [|op ops IH]; intros st c rs st' Hc.
  - intros [= <- <-]. by exists c.
  - rewrite run_cons. destruct (exec self op st) as [r st1] eqn:He.
    intros [= <- <-]; cbn [fst snd].
    destruct (exec_step _ _ _ _ _ _ Hc He) as (c1 & Hc1 & _ & Hstep).
    destruct (run self ops st1) as [rs1 st2] eqn:Hrun.
    destruct (IH _ _ _ _ Hc1 Hrun) as (c2 & Hc2 & H11 & H2).
    exists c2. split; [done |].
    destruct Hstep as [[E1 E2]|[_ [[E1 E2]|[E1 E2]]]].
    + rewrite E1 in H11. rewrite E2 in H2. by split.
    + rewrite E1 in H11. split; [done |]. intros _. by apply H2.
    + rewrite E2 in H2. split; [| done]. intros _. by apply H11.
Qed.

(** X7. A [send] entered on an unbound instance leaves it unbound exactly
    when no protocol connection was constructed during it; the [send] has
    then raised the exception of a collaborator, and the instance is as it
    was, ready for another attempt. *)
Theorem send_binds_iff_a_connection_was_constructed
    self request verify cert timeout st c r st' es :
  heap st !! self = Some c ->
  unbound c ->
  send self request verify cert timeout st = (r, st') ->
  trace st' = trace st ++ es ->
  exists c',
    heap st' !! self = Some c'
    /\ (unbound c' <-> Forall (fun en => constructed en = false) es)
    /\ (unbound c' -> c' = c /\ exists x, r = inl (Raised x)).
Proof.
  intros Hc [H11 H2]; destruct c; cbn in H11, H2; subst.
  follow Hc; outcome.
  all: eexists; split; [first [exact Hc | apply lookup_insert_eq] |].
  all: unfold unbound; cbn; split;
    [ split;
      [ intros [? ?]; first [done | by repeat constructor]
      | intros HF; first [ done
                         | exfalso; repeat
                             (apply Forall_cons in HF as [? HF]; try done) ] ]
    | intros [? ?]; first [done | split; [done | by eexists]] ].
Qed.

(** X8. [connect] calls nothing but the TLS context loader, the transport
    negotiator and a protocol connection constructor, the negotiator at
    most once: it never sends on, closes or queries a protocol connection,
    so a handle it replaces is dropped as it is. *)
Theorem connect_never_touches_a_bound_handle
    self verify cert timeout st c r st' es :
  heap st !! self = Some c ->
  connect self verify cert timeout st = (r, st') ->
  trace st' = trace st ++ es ->
  Forall (fun en => is_connect_event (event_of en)
                    || is_constructor_event (event_of en) = true) es
  /\ transport_calls es <= 1
  /\ length es <= 3.
Proof.
  intros Hc; destruct c; follow Hc; outcome.
  all: split; [by repeat constructor |]; cbn; lia.
Qed.

(** X9. On an instance that is bound, [send] does not look at its [verify]
    and [cert] overrides: with the same request and timeout it does the
    same whatever they are. *)
Theorem send_ignores_tls_overrides_when_bound
    self request verify cert verify' cert' timeout st c :
  heap st !! self = Some c ->
  ~ unbound c ->
  send self request verify cert timeout st
  = send self request verify' cert' timeout st.
Proof.
  intros Hc Hb. unfold unbound in Hb.
  destruct c as [? ? ? ? ? [h11|] [h2|]]; cbn in Hb; [| | | tauto].
  all: follow Hc; reflexivity.
Qed.

(** X10. [close] does not unbind: a second [close] calls the [close] of the
    same protocol connection again, and on an unbound instance both calls
    return without calling anything. *)
Theorem close_twice_closes_the_same_handle_twice
    self st c r1 st1 r2 st2 es :
  heap st !! self = Some c ->
  close self st = (r1, st1) ->
  close self st1 = (r2, st2) ->
  trace st2 = trace st ++ es ->
  match HTTPConnection.h2_connection c, HTTPConnection.h11_connection c with
  | Some h2, _ =>
      exists a1 a2,
        es = [Called (h2_close h2) a1; Called (h2_close h2) a2]
        /\ r1 = passed a1 /\ r2 = passed a2
  | None, Some h11 =>
      exists a1 a2,
        es = [Called (h11_close h11) a1; Called (h11_close h11) a2]
        /\ r1 = passed a1 /\ r2 = passed a2
  | None, None => es = [] /\ r1 = inr tt /\ r2 = inr tt
  end.
Proof.
  intros Hc Hclose.
  assert (heap st1 !! self = Some c
          /\ exists es1, trace st1 = trace st ++ es1
             /\ match HTTPConnection.h2_connection c,
                      HTTPConnection.h11_connection c with
                | Some h2, _ =>
                    exists a1, es1 = [Called (h2_close h2) a1] /\ r1 = passed a1
                | None, Some h11 =>
                    exists a1, es1 = [Called (h11_close h11) a1] /\ r1 = passed a1
                | None, None => es1 = [] /\ r1 = inr tt
                end) as (Hc1 & es1 & Ht1 & H1).
  { revert Hclose. destruct c; follow Hc; intros [= <- <-]; cbn.
    all: split; [done |].
    all: first [ eexists [_]; split; [done |]; by eexists
               | exists []; by rewrite app_nil_r ]. }
  clear Hclose Hc. revert H1.
  destruct c; follow Hc1; intros H1 [= <- <-] Htr; cbn [trace] in Htr;
    rewrite Ht1, <- ?app_assoc in Htr; apply app_inv_head in Htr.
  all: repeat match goal with
         | H : exists _, _ |- _ => destruct H as [? ?]
         | H : _ /\ _ |- _ => destruct H as [? ?]
         end; subst.
  all: first [ by eexists _, _ | done ].
Qed.

End Properties.

(** ** Concrete runs against the stub collaborators *)

(** The scenario of the specification: a connection to
    [https://example.test:443], a negotiator that reports HTTP/1.1, one
    [send].  One negotiator call, [is_http2] false, [is_closed] false until
    [close] and true after it. *)
Example https_send_scenario :
  let out :=
    Stub.run Stub.self
      [Send Stub.GET None None None; IsHttp2; IsClosed; Close; IsClosed]
      (Stub.fresh Stub.https_origin None [Some HTTP_11]) in
  out.1 = [inr (VResponse (Obj 7)); inr (VBool false); inr (VBool false);
           inr VNone; inr (VBool true)]
  /\ transport_calls (trace out.2) = 1.
Proof. split; vm_compute; reflexivity. Qed.



(** A first [send] over plain HTTP, then two more with an accessor call in
    between: one negotiator call, all in the first [send]. *)
Lemma send_connects_exactly_when_unbound_witness :
  let st := Stub.fresh Stub.http_origin None [Some HTTP_11] in
  let first := Stub.send Stub.self Stub.GET None None None st in
  let ops :=
    [Send Stub.GET None None None; IsClosed; Send Stub.GET None None None] in
  exists es1 es2,
    trace first.2 = trace st ++ es1
    /\ trace (Stub.run Stub.self ops first.2).2 = trace first.2 ++ es2
    /\ transport_calls es1 = 1
    /\ no_connect_phase es2.
Proof.
  intros st first ops.
  apply (proj1 (proj2 (send_connects_exactly_when_unbound
                         Stub.perform Stub.TimeoutConfig_new Stub.Origin_new))
           Stub.self Stub.GET None None None ops st
           (Stub.instance Stub.http_origin None) (Obj 7) first.2
           (Stub.run Stub.self ops first.2).1).
  - reflexivity.
  - split; reflexivity.
  - vm_compute; reflexivity.
  - repeat constructor.
  - vm_compute; reflexivity.
Defined.


(** C4, as stated, fails: a [send] without a timeout override calls the
    [send] of the protocol connection with [timeout=None], not with the
    stored timeout configuration of the instance. *)
Lemma send_without_override_passes_no_timeout :
  let st := Stub.fresh Stub.http_origin None [Some HTTP_11] in
  let out := Stub.send Stub.self Stub.GET None None None st in
  out.1 = inr (Obj 7)
  /\ exists c en,
      heap st !! Stub.self = Some c
      /\ en ∈ since st out.2
      /\ delegated_timeout en = Some None
      /\ None <> Some (effective_timeout c None).
Proof.
  split; [vm_compute; reflexivity |].
  exists (Stub.instance Stub.http_origin None),
    (Called (h11_send (Obj 0) Stub.GET None) (inr (Obj 7))).
  split; [reflexivity |]. split; [| split; [reflexivity | discriminate]].
  vm_compute. do 2 apply list_elem_of_further. apply list_elem_of_here.
Qed.

(** A [send] with a two-second timeout override: the HTTP/2 connection gets
    that override, the negotiator the configuration built from it. *)
Lemma send_passes_the_timeout_it_was_given_witness :
  let st := Stub.fresh Stub.https_origin None [Some HTTP_2] in
  let timeout := Some (TimeoutSeconds (QArith_base.Qmake 2 1)) in
  let out := Stub.send Stub.self Stub.GET None None timeout st in
  (forall en t,
      en ∈ since st out.2 -> delegated_timeout en = Some t -> t = timeout)
  /\ (forall resp, out.1 = inr resp ->
      exists pre en,
        since st out.2 = pre ++ [en] /\ delegated_timeout en = Some timeout)
  /\ (forall en backend host port ssl_context t,
        en ∈ since st out.2 ->
        event_of en = backend_connect backend host port ssl_context t ->
        t = Stub.TimeoutConfig_new (TimeoutSeconds (QArith_base.Qmake 2 1))).
Proof.
  intros st timeout out.
  apply (send_passes_the_timeout_it_was_given
           Stub.perform Stub.TimeoutConfig_new
           Stub.self Stub.GET None None timeout st
           (Stub.instance Stub.https_origin None) out.1 out.2).
  - reflexivity.
  - vm_compute; reflexivity.
  - vm_compute; reflexivity.
Defined.

(** The negotiator refuses the connection: [connect] raises its exception
    and the instance is as the constructor built it. *)
Lemma connect_failure_binds_nothing_witness :
  let st := Stub.fresh Stub.https_origin None [None] in
  let out := Stub.connect Stub.self None None None st in
  out.1 = inl (Raised Stub.ConnectTimeout)
  /\ heap out.2 = heap st
  /\ heap out.2 !! Stub.self = Some (Stub.instance Stub.https_origin None).
Proof.
  intros st out.
  assert (out.1 = inl (Raised Stub.ConnectTimeout)) as Hout
    by (vm_compute; reflexivity).
  split; [exact Hout |].
  apply (proj2 (connect_failure_binds_nothing
                  Stub.perform Stub.TimeoutConfig_new
                  Stub.self None None None st
                  (Stub.instance Stub.https_origin None) out.1 out.2
                  (since st out.2)
                  ltac:(reflexivity)
                  ltac:(vm_compute; reflexivity)
                  ltac:(vm_compute; reflexivity))
           (Raised Stub.ConnectTimeout) Hout).
Defined.

(** After a [send] that bound HTTP/2, [close] closes that connection, and
    nothing else. *)
Lemma close_closes_the_bound_handle_witness :
  let st :=
    (Stub.send Stub.self Stub.GET None None None
       (Stub.fresh Stub.http_origin None [Some HTTP_2])).2 in
  Stub.close Stub.self st
  = (inr tt,
     mkState (Stub.mkWorld [] 1 [0]) (heap st)
       (trace st ++ [Called (h2_close (Obj 0)) (inr tt)])).
Proof.
  intros st.
  exact (proj1 (close_closes_the_bound_handle
                  Stub.perform Stub.TimeoutConfig_new Stub.Origin_new
                  Stub.self st
                  (HTTPConnection.set_h2_connection (Some (Obj 0))
                     (Stub.instance Stub.http_origin None))
                  ltac:(vm_compute; reflexivity))).
Defined.

(** [is_closed] on the instance the constructor has just built raises
    [AssertionError]. *)
Lemma accessors_assert_a_bound_handle_witness :
  let st := Stub.fresh Stub.https_origin None [Some HTTP_11] in
  (Stub.is_closed Stub.self st).1 = inl AssertionError.
Proof.
  intros st.
  apply (proj1 (proj2 (accessors_assert_a_bound_handle
                         Stub.perform Stub.self st
                         (Stub.instance Stub.https_origin None)
                         ltac:(reflexivity)))).
  split; reflexivity.
Defined.

(** A [send] with [verify=False] and a timeout override, refused by the
    negotiator, then a [send] without overrides: the TLS context of the
    second is loaded from the stored configuration, [verify=True]. *)
Lemma overrides_leave_the_stored_configuration_witness :
  let st := Stub.fresh Stub.https_origin None [None; Some HTTP_11] in
  let ops :=
    [Send Stub.GET (Some (VerifyBool false)) None
       (Some (TimeoutSeconds (QArith_base.Qmake 2 1)))] in
  let st1 := (Stub.run Stub.self ops st).2 in
  let out := Stub.exec Stub.self (Send Stub.GET None None None) st1 in
  out.1 = inr (VResponse (Obj 7))
  /\ forall en s,
      en ∈ since st1 out.2 -> event_of en = load_ssl_context s ->
      s = SSLConfig.mk None (VerifyBool true).
Proof.
  intros st ops st1 out. split; [vm_compute; reflexivity |].
  intros en s Hen Hev.
  destruct (proj1 (proj2 (overrides_leave_the_stored_configuration
                         Stub.perform Stub.TimeoutConfig_new
                         Stub.self ops st
                         (Stub.instance Stub.https_origin None)
                         (Stub.run Stub.self ops st).1 st1
                         (Send Stub.GET None None None) out.1 out.2
                         (since st1 out.2)
                         ltac:(reflexivity)
                         ltac:(vm_compute; reflexivity)
                         ltac:(vm_compute; reflexivity)
                         ltac:(vm_compute; reflexivity)))
              en s Hen Hev) as [-> _].
  reflexivity.
Defined.

(** An instance built with a release callback: the protocol connection is
    constructed with the callback applied to the location of that
    instance. *)
Lemma connect_forwards_release_witness :
  let st :=
    Stub.fresh Stub.https_origin (Some Stub.pool_release) [Some HTTP_2] in
  let out := Stub.connect Stub.self None None None st in
  out.1 = inr tt
  /\ forall en reader writer backend on_release,
      en ∈ since st out.2 ->
      event_of en = HTTP2Connection_new reader writer backend on_release
      \/ event_of en = HTTP11Connection_new reader writer backend on_release ->
      on_release = Some (partial Stub.pool_release Stub.self).
Proof.
  intros st out. split; [vm_compute; reflexivity |].
  exact (proj1 (connect_forwards_release
                  Stub.perform Stub.TimeoutConfig_new
                  Stub.self None None None st
                  (Stub.instance Stub.https_origin (Some Stub.pool_release))
                  out.1 out.2 (since st out.2)
                  ltac:(reflexivity)
                  ltac:(vm_compute; reflexivity)
                  ltac:(vm_compute; reflexivity))).
Defined.

(** [send], [close], [send] over plain HTTP/1.1: the second [send] goes to
    the connection bound by the first, now closed, and the store never
    changes. *)
Lemma close_keeps_the_binding_witness :
  let st :=
    (Stub.send Stub.self Stub.GET None None None
       (Stub.fresh Stub.http_origin None [Some HTTP_11])).2 in
  let st1 := (Stub.close Stub.self st).2 in
  let out := Stub.send Stub.self Stub.GET None None None st1 in
  heap st1 = heap st
  /\ heap out.2 = heap st
  /\ no_connect_phase (since st1 out.2)
  /\ exists a,
      since st1 out.2 = [Called (h11_send (Obj 0) Stub.GET None) a]
      /\ out.1 = passed a.
Proof.
  intros st st1 out.
  destruct (close_keeps_the_binding
              Stub.perform Stub.TimeoutConfig_new Stub.self st
              (HTTPConnection.set_h11_connection (Some (Obj 0))
                 (Stub.instance Stub.http_origin None))
              (Stub.close Stub.self st).1 st1 Stub.GET None None None
              out.1 out.2 (since st1 out.2)) as [Hh Hsend].
  - vm_compute; reflexivity.
  - vm_compute; reflexivity.
  - vm_compute; reflexivity.
  - vm_compute; reflexivity.
  - split; [exact Hh |]. apply Hsend. intros [? _]; discriminate.
Defined.

(** *** The further properties at the stub *)

(** HTTP/2 is negotiated for a plain origin: [is_http2] answers true after
    the [send]. *)
Lemma is_http2_reports_the_negotiated_protocol_witness :
  let st := Stub.fresh Stub.http_origin None [Some HTTP_2] in
  let out := Stub.send Stub.self Stub.GET None None None st in
  exists b,
    is_http2 Stub.self out.2 = (inr b, out.2)
    /\ (b = true <-> Some HTTP_2 ∈ negotiated <$> since st out.2).
Proof.
  intros st out.
  apply (is_http2_reports_the_negotiated_protocol
           Stub.perform Stub.TimeoutConfig_new
           Stub.self Stub.GET None None None st
           (Stub.instance Stub.http_origin None) (Obj 7) out.2).
  - reflexivity.
  - split; reflexivity.
  - vm_compute; reflexivity.
  - vm_compute; reflexivity.
Defined.

(** A [send] refused by the negotiator raises the negotiator's exception,
    not [AssertionError]. *)
Lemma send_never_fails_its_assertion_witness :
  let out :=
    Stub.send Stub.self Stub.GET None None None
      (Stub.fresh Stub.https_origin None [None]) in
  out.1 = inl (Raised Stub.ConnectTimeout)
  /\ out.1 <> inl AssertionError.
Proof.
  intros out. split; [vm_compute; reflexivity |].
  apply (send_never_fails_its_assertion
           Stub.perform Stub.TimeoutConfig_new
           Stub.self Stub.GET None None None
           (Stub.fresh Stub.https_origin None [None])
           (Stub.instance Stub.https_origin None)).
  reflexivity.
Defined.

(** Two instances in one store: a [send] and a [close] on the first leave
    the second as it was built. *)
Lemma run_leaves_other_instances_witness :
  let st :=
    (init Stub.TimeoutConfig_new Stub.Origin_new (inr Stub.http_origin)
       (VerifyBool true) None (TimeoutOfConfig Stub.DEFAULT_TIMEOUT_CONFIG)
       None None
       (Stub.fresh Stub.https_origin None [Some HTTP_2])).2 in
  let ops := [Send Stub.GET None None None; Close] in
  heap (Stub.run Stub.self ops st).2 !! 2%positive
  = Some (Stub.instance Stub.http_origin None).
Proof.
  intros st ops.
  refine (eq_trans (run_leaves_other_instances
                      Stub.perform Stub.TimeoutConfig_new
                      Stub.self ops st 2%positive _) _).
  - unfold Stub.self; discriminate.
  - vm_compute; reflexivity.
Defined.

(** A TLS origin whose negotiator refuses: the TLS context is loaded first,
    from the stored configuration, and then handed to the negotiator. *)
Lemma connect_loads_tls_only_for_tls_origins_witness :
  let st := Stub.fresh Stub.https_origin None [None] in
  let out := Stub.connect Stub.self None None None st in
  exists a rest,
    since st out.2
    = Called (load_ssl_context (SSLConfig.mk None (VerifyBool true))) a :: rest
    /\ match a with
       | inl x => rest = [] /\ out.1 = inl (Raised x)
       | inr ctx =>
           exists a' rest',
             rest = Called (backend_connect AsyncioBackend "example.test" 443
                              (Some ctx) Stub.DEFAULT_TIMEOUT_CONFIG) a'
                    :: rest'
       end.
Proof.
  intros st out.
  exact (connect_loads_tls_only_for_tls_origins
           Stub.perform Stub.TimeoutConfig_new
           Stub.self None None None st
           (Stub.instance Stub.https_origin None) out.1 out.2
           (since st out.2)
           ltac:(reflexivity)
           ltac:(vm_compute; reflexivity)
           ltac:(vm_compute; reflexivity)).
Defined.

(** Bound to HTTP/1.1 by a [send], then closed, then connected again with
    HTTP/2 negotiated: the HTTP/1.1 handle is still non-null. *)
Lemma binding_is_never_undone_witness :
  let st :=
    (Stub.send Stub.self Stub.GET None None None
       (Stub.fresh Stub.http_origin None [Some HTTP_11; Some HTTP_2])).2 in
  let ops := [Close; Connect None None None; IsClosed] in
  exists c',
    heap (Stub.run Stub.self ops st).2 !! Stub.self = Some c'
    /\ is_Some (HTTPConnection.h11_connection c').
Proof.
  intros st ops.
  destruct (binding_is_never_undone
              Stub.perform Stub.TimeoutConfig_new Stub.self ops st
              (HTTPConnection.set_h11_connection (Some (Obj 0))
                 (Stub.instance Stub.http_origin None))
              (Stub.run Stub.self ops st).1 (Stub.run Stub.self ops st).2)
    as (c' & Hc' & H11 & _).
  - vm_compute; reflexivity.
  - vm_compute; reflexivity.
  - exists c'. split; [exact Hc' |]. apply H11. by eexists.
Defined.

(** The negotiator refuses: no protocol connection is constructed and the
    instance stays unbound, as the constructor built it. *)
Lemma send_binds_iff_a_connection_was_constructed_witness :
  let st := Stub.fresh Stub.https_origin None [None] in
  let out := Stub.send Stub.self Stub.GET None None None st in
  exists c',
    heap out.2 !! Stub.self = Some c'
    /\ (unbound c'
        <-> Forall (fun en => constructed en = false) (since st out.2))
    /\ (unbound c' ->
        c' = Stub.instance Stub.https_origin None
        /\ exists x, out.1 = inl (Raised x)).
Proof.
  intros st out.
  apply (send_binds_iff_a_connection_was_constructed
           Stub.perform Stub.TimeoutConfig_new
           Stub.self Stub.GET None None None st
           (Stub.instance Stub.https_origin None)).
  - reflexivity.
  - split; reflexivity.
  - vm_compute; reflexivity.
  - vm_compute; reflexivity.
Defined.

(** A second [connect] on an instance bound to HTTP/1.1: three calls, none
    of them on the handle it had. *)
Lemma connect_never_touches_a_bound_handle_witness :
  let st :=
    (Stub.connect Stub.self None None None
       (Stub.fresh Stub.https_origin None [Some HTTP_11; Some HTTP_11])).2 in
  let out := Stub.connect Stub.self None None None st in
  Forall (fun en => is_connect_event (event_of en)
                    || is_constructor_event (event_of en) = true)
    (since st out.2)
  /\ transport_calls (since st out.2) <= 1
  /\ length (since st out.2) <= 3.
Proof.
  intros st out.
  apply (connect_never_touches_a_bound_handle
           Stub.perform Stub.TimeoutConfig_new
           Stub.self None None None st
           (HTTPConnection.set_h11_connection (Some (Obj 0))
              (Stub.instance Stub.https_origin None)) out.1 out.2).
  - vm_compute; reflexivity.
  - vm_compute; reflexivity.
  - vm_compute; reflexivity.
Defined.

(** On an instance bound to HTTP/2, [send] with [verify=False] and a client
    certificate does what [send] without overrides does. *)
Lemma send_ignores_tls_overrides_when_bound_witness :
  let st :=
    (Stub.send Stub.self Stub.GET None None None
       (Stub.fresh Stub.https_origin None [Some HTTP_2])).2 in
  Stub.send Stub.self Stub.GET (Some (VerifyBool false))
    (Some (CertFile "client.pem")) None st
  = Stub.send Stub.self Stub.GET None None None st.
Proof.
  intros st.
  apply (send_ignores_tls_overrides_when_bound
           Stub.perform Stub.TimeoutConfig_new Stub.self Stub.GET
           (Some (VerifyBool false)) (Some (CertFile "client.pem")) None None
           None st
           (HTTPConnection.set_h2_connection (Some (Obj 0))
              (Stub.instance Stub.https_origin None))).
  - vm_compute; reflexivity.
  - intros [_ ?]; discriminate.
Defined.

(** Bound to HTTP/2 and closed twice: the same connection is closed twice. *)
Lemma close_twice_closes_the_same_handle_twice_witness :
  let st :=
    (Stub.send Stub.self Stub.GET None None None
       (Stub.fresh Stub.http_origin None [Some HTTP_2])).2 in
  let out1 := Stub.close Stub.self st in
  let out2 := Stub.close Stub.self out1.2 in
  exists a1 a2,
    since st out2.2 = [Called (h2_close (Obj 0)) a1; Called (h2_close (Obj 0)) a2]
    /\ out1.1 = passed a1 /\ out2.1 = passed a2.
Proof.
  intros st out1 out2.
  exact (close_twice_closes_the_same_handle_twice
           Stub.perform Stub.self st
           (HTTPConnection.set_h2_connection (Some (Obj 0))
              (Stub.instance Stub.http_origin None))
           out1.1 out1.2 out2.1 out2.2 (since st out2.2)
           ltac:(vm_compute; reflexivity)
           ltac:(vm_compute; reflexivity)
           ltac:(vm_compute; reflexivity)
           ltac:(vm_compute; reflexivity)).
Defined.
